(** * Application.cpp: a triangle drawn through GLFW, GLEW and OpenGL

    The program is a straight line of calls into three foreign libraries
    (GLFW for the window, GLEW for the function loader, OpenGL for the GPU)
    followed by a frame loop.  All of its observable behaviour is the
    sequence of calls it makes, the text it writes to [std::cout] and the
    exit code of [main].

    The embedding keeps that view: a computation threads the history of
    calls made so far, and every value that comes back from a library is
    supplied by a [Driver], an arbitrary function of that history.  The
    three C++ functions of the file are transcribed statement by
    statement on top of a small state monad. *)

From Stdlib Require Import ZArith List String Ascii Bool QArith Lia.
Import ListNotations.

Local Open Scope Z_scope.

(** ** Machine integers *)

(** [unsigned int] and [GLuint]/[GLenum]: 32 bits, wrapping. *)
Definition to_uint (z : Z) : Z := z mod 2 ^ 32.

(** [int] and [GLint]: 32 bits, two's complement. *)
Definition to_int (z : Z) : Z := (z + 2 ^ 31) mod 2 ^ 32 - 2 ^ 31.

(** [size_t] and object pointers.  The source does not fix the target;
    the 64-bit one is taken.  Lengths that are converted lie in the
    [int] range, where any width from 32 bits up gives the same value
    for a non-negative length. *)
Definition to_size_t (z : Z) : Z := z mod 2 ^ 64.

Definition sizeof_char : Z := 1.
Definition sizeof_float : Z := 4.

(** The null pointer, [NULL] and [nullptr]. *)
Definition NULL : Z := 0.

(** ** Constants of the headers (glew.h, glfw3.h) *)

Definition GL_FALSE : Z := 0.
Definition GL_TRIANGLES : Z := 0x0004.
Definition GL_FLOAT : Z := 0x1406.
Definition GL_VERSION : Z := 0x1F02.
Definition GL_COLOR_BUFFER_BIT : Z := 0x4000.
Definition GL_ARRAY_BUFFER : Z := 0x8892.
Definition GL_STATIC_DRAW : Z := 0x88E4.
Definition GL_FRAGMENT_SHADER : Z := 0x8B30.
Definition GL_VERTEX_SHADER : Z := 0x8B31.
Definition GL_COMPILE_STATUS : Z := 0x8B81.
Definition GL_INFO_LOG_LENGTH : Z := 0x8B84.
Definition GLEW_OK : Z := 0.

(** ** Strings *)

(** [std::string::c_str]: the library reads the text up to the first NUL. *)
Fixpoint c_str (s : string) : string :=
  match s with
  | EmptyString => EmptyString
  | String c rest =>
      if Ascii.eqb c Ascii.zero then EmptyString else String c (c_str rest)
  end.

Definition newline : string := String (ascii_of_nat 10) EmptyString.

(** ** Calls that leave the program *)

(** One constructor per foreign function the file calls, with the
    arguments passed by value.  Out-parameters ([&result], [&length],
    [&bufferID], the log buffer) are answers of the driver, not
    arguments.  A float is the rational it denotes; every literal of the
    file is a dyadic rational that binary32 holds exactly. *)
Inductive call : Type :=
  (* GLFW *)
  | glfwInit
  | glfwCreateWindow (width height : Z) (title : string) (monitor share : Z)
  | glfwTerminate
  | glfwMakeContextCurrent (window : Z)
  | glfwWindowShouldClose (window : Z)
  | glfwSwapBuffers (window : Z)
  | glfwPollEvents
  (* GLEW *)
  | glewInit
  (* OpenGL *)
  | glGetString (name : Z)
  | glGenBuffers (n : Z)
  | glBindBuffer (target buffer : Z)
  | glBufferData (target size : Z) (data : list Q) (usage : Z)
  | glEnableVertexAttribArray (index : Z)
  | glVertexAttribPointer (index size type normalized stride pointer : Z)
  | glCreateShader (type : Z)
  | glShaderSource (shader count : Z) (strings : list string) (length : Z)
  | glCompileShader (shader : Z)
  | glGetShaderiv (shader pname : Z)
  | glGetShaderInfoLog (shader bufSize : Z)
  | glDeleteShader (shader : Z)
  | glCreateProgram
  | glAttachShader (program shader : Z)
  | glLinkProgram (program : Z)
  | glValidateProgram (program : Z)
  | glUseProgram (program : Z)
  | glClear (mask : Z)
  | glDrawArrays (mode first count : Z)
  (* C runtime and iostream *)
  | _malloca (size : Z)
  | cout (text : string)
  | endl.

Definition History : Type := list call.

(** What the libraries answer.  [ret_int h c] is the integer that call
    [c], made after the calls of [h], returns or stores through its
    out-parameter; [ret_str h c] is the text it returns or leaves in the
    caller's buffer.  Nothing is assumed of either. *)
Record Driver : Type := {
  ret_int : History -> call -> Z;
  ret_str : History -> call -> string
}.

(** ** Classifying calls *)

Definition is_draw (c : call) : bool :=
  match c with glDrawArrays _ _ _ => true | _ => false end.

Definition is_buffer_write (c : call) : bool :=
  match c with glBufferData _ _ _ _ => true | _ => false end.

Definition is_delete (c : call) : bool :=
  match c with glDeleteShader _ => true | _ => false end.

Definition is_terminate (c : call) : bool :=
  match c with glfwTerminate => true | _ => false end.

(** A call that hands [p] to a delete function. *)
Definition releases (p : Z) (c : call) : bool :=
  match c with glDeleteShader s => s =? p | _ => false end.

(** A GPU operation that works on program [p]: building it, binding
    it, or drawing (a draw runs the program currently bound). *)
Definition uses_program (p : Z) (c : call) : bool :=
  match c with
  | glAttachShader q _ | glLinkProgram q | glValidateProgram q
  | glUseProgram q => q =? p
  | glDrawArrays _ _ _ => true
  | _ => false
  end.

Definition count (f : call -> bool) (h : History) : nat :=
  List.length (filter f h).

(** The text written to standard output by a sequence of calls. *)
Fixpoint stdout (h : History) : string :=
  match h with
  | [] => EmptyString
  | cout s :: rest => String.append s (stdout rest)
  | endl :: rest => String.append newline (stdout rest)
  | _ :: rest => stdout rest
  end.

(** The texts handed to [std::cout], one per insertion. *)
Fixpoint printed (h : History) : list string :=
  match h with
  | [] => []
  | cout s :: rest => s :: printed rest
  | _ :: rest => printed rest
  end.

(** The calls of one frame, by kind. *)
Definition is_close_test (c : call) : bool :=
  match c with glfwWindowShouldClose _ => true | _ => false end.

Definition is_clear (c : call) : bool :=
  match c with glClear _ => true | _ => false end.

Definition is_swap (c : call) : bool :=
  match c with glfwSwapBuffers _ => true | _ => false end.

Definition is_poll (c : call) : bool :=
  match c with glfwPollEvents => true | _ => false end.

(** A call into OpenGL proper, which needs a current context. *)
Definition is_gl (c : call) : bool :=
  match c with
  | glGetString _ | glGenBuffers _ | glBindBuffer _ _
  | glBufferData _ _ _ _ | glEnableVertexAttribArray _
  | glVertexAttribPointer _ _ _ _ _ _ | glCreateShader _
  | glShaderSource _ _ _ _ | glCompileShader _ | glGetShaderiv _ _
  | glGetShaderInfoLog _ _ | glDeleteShader _ | glCreateProgram
  | glAttachShader _ _ | glLinkProgram _ | glValidateProgram _
  | glUseProgram _ | glClear _ | glDrawArrays _ _ _ => true
  | _ => false
  end.

(** The window a GLFW call is made on. *)
Definition window_of_call (c : call) : option Z :=
  match c with
  | glfwMakeContextCurrent w | glfwWindowShouldClose w
  | glfwSwapBuffers w => Some w
  | _ => None
  end.

(** ** A driver to run the program against

    A well-behaved installation, used to evaluate the program on concrete
    runs.  Object names are handed out in order of creation, a shader
    compiles when its source opens with a version directive, and the
    window asks to close once [frames_shown] frames have been drawn. *)
Record Scenario : Type := {
  glfw_up : bool;
  window_up : bool;
  glew_up : bool;
  frames_shown : nat
}.

Definition is_create (c : call) : bool :=
  match c with glCreateShader _ | glCreateProgram => true | _ => false end.

Fixpoint last_source (h : History) : string :=
  match h with
  | [] => EmptyString
  | c :: rest =>
      match c, existsb (fun c' => match c' with
                                  | glShaderSource _ _ _ _ => true
                                  | _ => false
                                  end) rest with
      | glShaderSource _ _ strings _, false => String.concat "" strings
      | _, _ => last_source rest
      end
  end.

Definition accepted (h : History) : bool :=
  String.prefix "#version" (last_source h).

Definition sample_log : string := "ERROR: 0:1: syntax error".

Definition sample_driver (s : Scenario) : Driver := {|
  ret_int h c :=
    match c with
    | glfwInit => if glfw_up s then 1 else 0
    | glfwCreateWindow _ _ _ _ _ => if window_up s then 0x1000 else 0
    | glewInit => if glew_up s then GLEW_OK else 1
    | glGenBuffers _ => 1
    | glCreateShader _ | glCreateProgram => 1 + Z.of_nat (count is_create h)
    | glGetShaderiv _ pname =>
        if pname =? GL_COMPILE_STATUS then
          if accepted h then 1 else GL_FALSE
        else
          if accepted h then 0 else Z.of_nat (String.length sample_log) + 1
    | glfwWindowShouldClose _ =>
        if (frames_shown s <=? count is_draw h)%nat then 1 else 0
    | _ => 0
    end;
  ret_str h c :=
    match c with
    | glGetString _ => "3.3.0"%string
    | glGetShaderInfoLog _ _ => if accepted h then EmptyString else sample_log
    | _ => EmptyString
    end
|}.

Definition healthy (frames : nat) : Scenario :=
  {| glfw_up := true; window_up := true; glew_up := true;
     frames_shown := frames |}.

(** Installations on which one of the libraries fails to come up. *)
Definition no_glfw : Scenario :=
  {| glfw_up := false; window_up := true; glew_up := true;
     frames_shown := 0 |}.

Definition no_window : Scenario :=
  {| glfw_up := true; window_up := false; glew_up := true;
     frames_shown := 0 |}.

Definition no_glew : Scenario :=
  {| glfw_up := true; window_up := true; glew_up := false;
     frames_shown := 1 |}.

(** An installation that cannot create shader objects: glCreateShader
    answers 0, and the status query on that name leaves a nonzero value
    in [result]. *)
Definition shaderless_driver : Driver := {|
  ret_int h c :=
    match c with
    | glCreateShader _ => 0
    | glGetShaderiv _ _ => 1
    | _ => 0
    end;
  ret_str h c := EmptyString
|}.

(** ** The monad of the program *)

Definition GL (A : Type) : Type := History -> A * History.

Definition ret {A : Type} (a : A) : GL A := fun h => (a, h).

Definition bind {A B : Type} (m : GL A) (k : A -> GL B) : GL B :=
  fun h => let (a, h') := m h in k a h'.

Declare Scope gl_scope.
Delimit Scope gl_scope with gl.
Notation "x <- m ;; k" := (bind m (fun x => k))
  (at level 61, m at next level, right associativity) : gl_scope.
Notation "m ;; k" := (bind m (fun _ => k))
  (at level 61, right associativity) : gl_scope.
Local Open Scope gl_scope.

Section Program.

Variable drv : Driver.

(** A call whose result is ignored or absent. *)
Definition call_void (c : call) : GL unit :=
  fun h => (tt, h ++ [c]).

(** A call yielding an [unsigned int] (a handle, a [GLenum]). *)
Definition call_uint (c : call) : GL Z :=
  fun h => (to_uint (ret_int drv h c), h ++ [c]).

(** A call yielding an [int]. *)
Definition call_int (c : call) : GL Z :=
  fun h => (to_int (ret_int drv h c), h ++ [c]).

(** A call yielding a pointer. *)
Definition call_ptr (c : call) : GL Z :=
  fun h => (to_size_t (ret_int drv h c), h ++ [c]).

(** A call yielding text. *)
Definition call_str (c : call) : GL string :=
  fun h => (ret_str drv h c, h ++ [c]).

(** ** CompileShader *)

Definition stage_label (type : Z) : string :=
  if type =? GL_VERTEX_SHADER then "Vertex"%string else "Fragment"%string.

Definition CompileShader (type : Z) (source : string) : GL Z :=
  id <- call_uint (glCreateShader type) ;;
  let src := c_str source in
  let sourceCodeCount := 1 in
  call_void (glShaderSource id sourceCodeCount [src] NULL) ;;
  call_void (glCompileShader id) ;;
  result <- call_int (glGetShaderiv id GL_COMPILE_STATUS) ;;
  if result =? GL_FALSE then
    length <- call_int (glGetShaderiv id GL_INFO_LOG_LENGTH) ;;
    call_void (_malloca (to_size_t (to_size_t length * sizeof_char))) ;;
    message <- call_str (glGetShaderInfoLog id length) ;;
    call_void (cout "Failed to compile ") ;;
    call_void (cout (stage_label type)) ;;
    call_void (cout " Shader!") ;;
    call_void endl ;;
    call_void (cout message) ;;
    call_void endl ;;
    call_void (glDeleteShader id) ;;
    ret 0
  else
    ret id.

(** ** CreateShader *)

Definition CreateShader (vertexShader fragmentShader : string) : GL Z :=
  program <- call_uint glCreateProgram ;;
  vs <- CompileShader GL_VERTEX_SHADER vertexShader ;;
  fs <- CompileShader GL_FRAGMENT_SHADER fragmentShader ;;
  call_void (glAttachShader program vs) ;;
  call_void (glAttachShader program fs) ;;
  call_void (glLinkProgram program) ;;
  call_void (glValidateProgram program) ;;
  call_void (glDeleteShader vs) ;;
  call_void (glDeleteShader fs) ;;
  ret program.

(** ** main *)

Definition positions : list Q :=
  [ -1 # 2; -1 # 2;
     0 # 1;  1 # 2;
     1 # 2; -1 # 2 ]%Q.

Definition vertexShader : string :=
  String.concat newline
    [ "#version 330 core";
      "";
      "layout(location = 0) in vec4 position;";
      "void main(){";
      "   gl_Position  = position;";
      "}";
      "" ]%string.

Definition fragmentShader : string :=
  String.concat newline
    [ "#version 330 core";
      "";
      "layout(location = 0) out vec4 color;";
      "void main(){";
      "   color = vec4(1.0,0.0,0.0,1.0);";
      "}";
      "" ]%string.

(** The body of the [while] loop. *)
Definition frame (window : Z) : GL unit :=
  call_void (glClear GL_COLOR_BUFFER_BIT) ;;
  call_void (glDrawArrays GL_TRIANGLES 0 3) ;;
  call_void (glfwSwapBuffers window) ;;
  call_void glfwPollEvents.

(** [while (!glfwWindowShouldClose(window)) { ... }].  The loop has no
    bound of its own; [fuel] bounds the number of times the condition is
    evaluated.  The result is [true] when the loop was left because the
    condition failed, [false] when the fuel ran out first. *)
Fixpoint frame_loop (fuel : nat) (window : Z) : GL bool :=
  match fuel with
  | O => ret false
  | S fuel' =>
      close <- call_int (glfwWindowShouldClose window) ;;
      if close =? 0 then
        frame window ;;
        frame_loop fuel' window
      else
        ret true
  end.

(** [main].  [Some c] is the exit code; [None] says that the frame loop
    was still running when the fuel ran out. *)
Definition main (fuel : nat) : GL (option Z) :=
  ok <- call_int glfwInit ;;
  if ok =? 0 then
    ret (Some (-1))
  else
    window <- call_ptr (glfwCreateWindow 640 480 "Hello World" NULL NULL) ;;
    if window =? NULL then
      call_void glfwTerminate ;;
      ret (Some (-1))
    else
      call_void (glfwMakeContextCurrent window) ;;
      status <- call_uint glewInit ;;
      (if negb (status =? GLEW_OK) then
         call_void (cout "Error!") ;;
         call_void endl
       else
         ret tt) ;;
      version <- call_str (glGetString GL_VERSION) ;;
      call_void (cout version) ;;
      call_void endl ;;
      bufferID <- call_uint (glGenBuffers 1) ;;
      call_void (glBindBuffer GL_ARRAY_BUFFER bufferID) ;;
      call_void (glBufferData GL_ARRAY_BUFFER (6 * sizeof_float)
                   positions GL_STATIC_DRAW) ;;
      call_void (glEnableVertexAttribArray 0) ;;
      call_void (glVertexAttribPointer 0 2 GL_FLOAT GL_FALSE
                   (sizeof_float * 2) 0) ;;
      shader <- CreateShader vertexShader fragmentShader ;;
      call_void (glUseProgram shader) ;;
      finished <- frame_loop fuel window ;;
      if finished then
        call_void (glDeleteShader shader) ;;
        call_void glfwTerminate ;;
        ret (Some 0)
      else
        ret None.

(** ** What a run looks like

    The calls a function makes, written out as data.  Each answer of the
    driver is read at the history in which the function asks for it. *)

(** The calls [m] adds to the history [h]. *)
Definition calls_of {A : Type} (m : GL A) (h : History) : History :=
  skipn (List.length h) (snd (m h)).

(** *** One call of CompileShader *)

Definition created_id (h : History) (type : Z) : Z :=
  to_uint (ret_int drv h (glCreateShader type)).

Definition submit_calls (h : History) (type : Z) (source : string)
  : History :=
  [ glCreateShader type;
    glShaderSource (created_id h type) 1 [c_str source] NULL;
    glCompileShader (created_id h type) ].

Definition compile_status (h : History) (type : Z) (source : string) : Z :=
  to_int (ret_int drv (h ++ submit_calls h type source)
            (glGetShaderiv (created_id h type) GL_COMPILE_STATUS)).

Definition query_calls (h : History) (type : Z) (source : string)
  : History :=
  submit_calls h type source
    ++ [ glGetShaderiv (created_id h type) GL_COMPILE_STATUS ].

Definition log_length (h : History) (type : Z) (source : string) : Z :=
  to_int (ret_int drv (h ++ query_calls h type source)
            (glGetShaderiv (created_id h type) GL_INFO_LOG_LENGTH)).

Definition scratch_size (h : History) (type : Z) (source : string) : Z :=
  to_size_t (to_size_t (log_length h type source) * sizeof_char).

Definition log_message (h : History) (type : Z) (source : string)
  : string :=
  ret_str drv
    (h ++ query_calls h type source
       ++ [ glGetShaderiv (created_id h type) GL_INFO_LOG_LENGTH;
            _malloca (scratch_size h type source) ])
    (glGetShaderInfoLog (created_id h type) (log_length h type source)).

Definition failure_calls (h : History) (type : Z) (source : string)
  : History :=
  [ glGetShaderiv (created_id h type) GL_INFO_LOG_LENGTH;
    _malloca (scratch_size h type source);
    glGetShaderInfoLog (created_id h type) (log_length h type source);
    cout "Failed to compile ";
    cout (stage_label type);
    cout " Shader!";
    endl;
    cout (log_message h type source);
    endl;
    glDeleteShader (created_id h type) ].

Definition CompileShader_calls (h : History) (type : Z) (source : string)
  : History :=
  query_calls h type source
    ++ (if compile_status h type source =? GL_FALSE
        then failure_calls h type source else []).

Definition CompileShader_result (h : History) (type : Z) (source : string)
  : Z :=
  if compile_status h type source =? GL_FALSE then 0
  else created_id h type.

(** *** One call of CreateShader *)

Definition program_id (h : History) : Z :=
  to_uint (ret_int drv h glCreateProgram).

Definition vs_history (h : History) : History := h ++ [glCreateProgram].

Definition vs_id (h : History) (v : string) : Z :=
  CompileShader_result (vs_history h) GL_VERTEX_SHADER v.

Definition fs_history (h : History) (v : string) : History :=
  vs_history h ++ CompileShader_calls (vs_history h) GL_VERTEX_SHADER v.

Definition fs_id (h : History) (v f : string) : Z :=
  CompileShader_result (fs_history h v) GL_FRAGMENT_SHADER f.

Definition link_calls (program vs fs : Z) : History :=
  [ glAttachShader program vs;
    glAttachShader program fs;
    glLinkProgram program;
    glValidateProgram program;
    glDeleteShader vs;
    glDeleteShader fs ].

Definition CreateShader_calls (h : History) (v f : string) : History :=
  glCreateProgram
    :: CompileShader_calls (vs_history h) GL_VERTEX_SHADER v
    ++ CompileShader_calls (fs_history h v) GL_FRAGMENT_SHADER f
    ++ link_calls (program_id h) (vs_id h v) (fs_id h v f).

(** *** The frame loop *)

(** One trip round the loop: the condition, then the body. *)
Definition frame_calls (window : Z) : History :=
  [ glfwWindowShouldClose window;
    glClear GL_COLOR_BUFFER_BIT;
    glDrawArrays GL_TRIANGLES 0 3;
    glfwSwapBuffers window;
    glfwPollEvents ].

Definition frames (window : Z) (k : nat) : History :=
  List.concat (repeat (frame_calls window) k).

(** The window-close flag as the loop condition reads it after [k]
    frames. *)
Definition close_flag (window : Z) (h : History) (k : nat) : Z :=
  to_int (ret_int drv (h ++ frames window k) (glfwWindowShouldClose window)).

(** The number of frames drawn before the flag is first seen set, when
    that happens within [fuel] evaluations of the condition. *)
Fixpoint first_close (window : Z) (h : History) (fuel : nat) : option nat :=
  match fuel with
  | O => None
  | S fuel' =>
      if to_int (ret_int drv h (glfwWindowShouldClose window)) =? 0
      then option_map S (first_close window (h ++ frame_calls window) fuel')
      else Some O
  end.

(** *** main *)

Definition init_result (h : History) : Z :=
  to_int (ret_int drv h glfwInit).

Definition create_window : call :=
  glfwCreateWindow 640 480 "Hello World" NULL NULL.

Definition window_handle (h : History) : Z :=
  to_size_t (ret_int drv (h ++ [glfwInit]) create_window).

Definition context_calls (h : History) : History :=
  [ glfwInit; create_window; glfwMakeContextCurrent (window_handle h) ].

Definition glew_status (h : History) : Z :=
  to_uint (ret_int drv (h ++ context_calls h) glewInit).

Definition glew_calls (h : History) : History :=
  glewInit
    :: (if negb (glew_status h =? GLEW_OK)
        then [cout "Error!"; endl] else []).

Definition version_string (h : History) : string :=
  ret_str drv (h ++ context_calls h ++ glew_calls h) (glGetString GL_VERSION).

Definition version_calls (h : History) : History :=
  [ glGetString GL_VERSION; cout (version_string h); endl ].

Definition buffer_id (h : History) : Z :=
  to_uint (ret_int drv
             (h ++ context_calls h ++ glew_calls h ++ version_calls h)
             (glGenBuffers 1)).

Definition buffer_calls (h : History) : History :=
  [ glGenBuffers 1;
    glBindBuffer GL_ARRAY_BUFFER (buffer_id h);
    glBufferData GL_ARRAY_BUFFER (6 * sizeof_float) positions GL_STATIC_DRAW;
    glEnableVertexAttribArray 0;
    glVertexAttribPointer 0 2 GL_FLOAT GL_FALSE (sizeof_float * 2) 0 ].

Definition shader_history (h : History) : History :=
  h ++ context_calls h ++ glew_calls h ++ version_calls h ++ buffer_calls h.

Definition shader_handle (h : History) : Z :=
  program_id (shader_history h).

Definition setup_calls (h : History) : History :=
  context_calls h ++ glew_calls h ++ version_calls h ++ buffer_calls h
    ++ CreateShader_calls (shader_history h) vertexShader fragmentShader
    ++ [ glUseProgram (shader_handle h) ].

Definition shutdown_calls (h : History) : History :=
  [ glDeleteShader (shader_handle h); glfwTerminate ].

(** Somewhere in [h] a call releases [p] and a later call uses it. *)
Fixpoint use_after_release (p : Z) (h : History) : bool :=
  match h with
  | [] => false
  | c :: rest =>
      (releases p c && existsb (uses_program p) rest)
      || use_after_release p rest
  end.

End Program.

(** * Properties *)

Arguments calls_of {A} m h /.

Create HintDb gl.

#[local] Hint Unfold bind ret call_void call_uint call_int call_ptr
  call_str : gl.

(** Runs one function down to pairs of a result and a history, and
    flattens the appends on both sides. *)
Ltac gl_unfold := autounfold with gl; cbn beta iota.
Ltac gl_flatten :=
  repeat first [rewrite <- app_assoc | progress (cbn [app])].

Section Runs.

Variable drv : Driver.

(** ** Integer conversions *)

Lemma to_int_range (z : Z) : - 2 ^ 31 <= to_int z < 2 ^ 31.
Proof.
  unfold to_int.
  pose proof (Z.mod_pos_bound (z + 2 ^ 31) (2 ^ 32) ltac:(lia)). lia.
Qed.

Lemma to_size_t_small (z : Z) : 0 <= z < 2 ^ 64 -> to_size_t z = z.
Proof. intros Hz. unfold to_size_t. now apply Z.mod_small. Qed.

(** ** The calls a run adds *)

Lemma calls_of_run {A : Type} (m : GL A) (h : History) (a : A)
      (t : History) :
  m h = (a, h ++ t) -> calls_of m h = t.
Proof.
  intros E. cbn. rewrite E. cbn.
  rewrite skipn_app, skipn_all, Nat.sub_diag. reflexivity.
Qed.

(** ** The run of each function *)

Lemma CompileShader_run (type : Z) (source : string) (h : History) :
  CompileShader drv type source h
  = (CompileShader_result drv h type source,
     h ++ CompileShader_calls drv h type source).
Proof.
  unfold CompileShader, CompileShader_result, CompileShader_calls.
  gl_unfold. gl_flatten.
  change (h ++ glCreateShader type
            :: glShaderSource (to_uint (ret_int drv h (glCreateShader type)))
                 1 [c_str source] NULL
            :: [glCompileShader (to_uint (ret_int drv h (glCreateShader type)))])
    with (h ++ submit_calls drv h type source).
  fold (created_id drv h type).
  fold (compile_status drv h type source).
  destruct (compile_status drv h type source =? GL_FALSE).
  - gl_flatten. reflexivity.
  - gl_flatten. reflexivity.
Qed.

Lemma CreateShader_run (v f : string) (h : History) :
  CreateShader drv v f h
  = (program_id drv h, h ++ CreateShader_calls drv h v f).
Proof.
  unfold CreateShader, CreateShader_calls, link_calls, vs_id, fs_id,
    fs_history, vs_history.
  unfold bind at 1. unfold call_uint at 1. fold (program_id drv h).
  unfold bind at 1. rewrite CompileShader_run.
  unfold bind at 1. rewrite CompileShader_run.
  gl_unfold. gl_flatten. reflexivity.
Qed.

Lemma frames_S (window : Z) (k : nat) :
  frames window (S k) = frame_calls window ++ frames window k.
Proof. reflexivity. Qed.

Lemma close_flag_shift (window : Z) (h : History) (k : nat) :
  close_flag drv window (h ++ frame_calls window) k
  = close_flag drv window h (S k).
Proof. unfold close_flag. now rewrite frames_S, app_assoc. Qed.

Lemma frame_loop_run (fuel : nat) (window : Z) (h : History) :
  frame_loop drv fuel window h
  = match first_close drv window h fuel with
    | Some k => (true, h ++ frames window k ++ [glfwWindowShouldClose window])
    | None => (false, h ++ frames window fuel)
    end.
Proof.
  revert h. induction fuel as [|fuel IH]; intros h.
  - cbn. unfold ret. now rewrite app_nil_r.
  - cbn [frame_loop first_close]. unfold frame. gl_unfold.
    destruct (to_int (ret_int drv h (glfwWindowShouldClose window)) =? 0).
    + gl_flatten.
      change (h ++ glfwWindowShouldClose window
                :: glClear GL_COLOR_BUFFER_BIT
                :: glDrawArrays GL_TRIANGLES 0 3
                :: glfwSwapBuffers window :: [glfwPollEvents])
        with (h ++ frame_calls window).
      rewrite IH.
      destruct (first_close drv window (h ++ frame_calls window) fuel);
        cbn [option_map]; rewrite frames_S; gl_flatten; reflexivity.
    + reflexivity.
Qed.

(** [first_close] finds the least frame count at which the flag is set. *)
Lemma first_close_spec (window : Z) (fuel : nat) (h : History) (k : nat) :
  first_close drv window h fuel = Some k
  <-> (k < fuel)%nat
      /\ close_flag drv window h k <> 0
      /\ forall j, (j < k)%nat -> close_flag drv window h j = 0.
Proof.
  revert h k. induction fuel as [|fuel IH]; intros h k.
  - cbn. split; [discriminate | intros [Hk _]; lia].
  - cbn [first_close].
    assert (E0 : close_flag drv window h 0
                 = to_int (ret_int drv h (glfwWindowShouldClose window))).
    { unfold close_flag. cbn. now rewrite app_nil_r. }
    destruct (Z.eqb_spec
                (to_int (ret_int drv h (glfwWindowShouldClose window))) 0)
      as [Hz|Hnz].
    + destruct (first_close drv window (h ++ frame_calls window) fuel)
        as [k'|] eqn:E; cbn [option_map].
      * apply IH in E. destruct E as (Hlt & Hset & Hbefore).
        rewrite close_flag_shift in Hset.
        split.
        -- intros [= <-]. repeat split; [lia | exact Hset |].
           intros [|j] Hj; [congruence|].
           rewrite <- close_flag_shift. apply Hbefore. lia.
        -- intros (Hk & Hk_set & Hk_before). f_equal.
           destruct k as [|k]; [congruence|].
           destruct (Nat.lt_trichotomy k k') as [Hlt'|[->|Hgt]];
             [|reflexivity|].
           ++ exfalso. apply Hk_set. rewrite <- close_flag_shift.
              now apply Hbefore.
           ++ exfalso. apply Hset. apply Hk_before. lia.
      * split; [discriminate|]. intros (Hk & Hk_set & Hk_before).
        exfalso. destruct k as [|k]; [congruence|].
        assert (E' : first_close drv window (h ++ frame_calls window) fuel
                     = Some k).
        { apply IH. repeat split; [lia | now rewrite close_flag_shift |].
          intros j Hj. rewrite close_flag_shift. apply Hk_before. lia. }
        congruence.
    + split.
      * intros [= <-]. repeat split; [lia | congruence |]. intros j Hj; lia.
      * intros (_ & _ & Hk_before). f_equal.
        destruct k as [|k]; [reflexivity|].
        exfalso. apply Hnz. rewrite <- E0. apply Hk_before. lia.
Qed.

Lemma first_close_none (window : Z) (fuel : nat) (h : History) :
  first_close drv window h fuel = None
  <-> forall j, (j < fuel)%nat -> close_flag drv window h j = 0.
Proof.
  split.
  - intros E j. induction j as [j IHj] using lt_wf_ind. intros Hj.
    destruct (Z.eq_dec (close_flag drv window h j) 0) as [|Hset]; [easy|].
    assert (E' : first_close drv window h fuel = Some j).
    { apply first_close_spec. repeat split; [lia | exact Hset |].
      intros i Hi. apply IHj; lia. }
    congruence.
  - intros Hall.
    destruct (first_close drv window h fuel) as [k|] eqn:E; [|reflexivity].
    apply first_close_spec in E. destruct E as (Hk & Hset & _).
    exfalso. apply Hset. now apply Hall.
Qed.

Lemma main_run (fuel : nat) (h : History) :
  main drv fuel h
  = if init_result drv h =? 0 then
      (Some (-1), h ++ [glfwInit])
    else if window_handle drv h =? NULL then
      (Some (-1), h ++ [glfwInit; create_window; glfwTerminate])
    else
      match first_close drv (window_handle drv h)
              (h ++ setup_calls drv h) fuel with
      | Some k =>
          (Some 0,
           h ++ setup_calls drv h
             ++ frames (window_handle drv h) k
             ++ glfwWindowShouldClose (window_handle drv h)
             :: shutdown_calls drv h)
      | None =>
          (None, h ++ setup_calls drv h ++ frames (window_handle drv h) fuel)
      end.
Proof.
  unfold main.
  unfold bind at 1. unfold call_int at 1. fold (init_result drv h).
  destruct (init_result drv h =? 0); [reflexivity|].
  unfold bind at 1. unfold call_ptr at 1.
  fold create_window. fold (window_handle drv h).
  destruct (window_handle drv h =? NULL); [gl_unfold; gl_flatten; reflexivity|].
  unfold setup_calls, shutdown_calls, shader_handle, shader_history,
    buffer_calls, buffer_id, version_calls, version_string, glew_calls,
    glew_status, context_calls.
  gl_unfold. gl_flatten.
  destruct (negb _); gl_unfold; gl_flatten;
    rewrite CreateShader_run; gl_flatten;
    rewrite frame_loop_run; gl_flatten;
    match goal with
    | |- context [first_close ?d ?w ?hh ?n] =>
        destruct (first_close d w hh n)
    end; gl_flatten; reflexivity.
Qed.

(** ** Calls that a part of the run never makes *)

Lemma frames_filter_nil (f : call -> bool) (window : Z) (k : nat) :
  filter f (frame_calls window) = [] -> filter f (frames window k) = [].
Proof.
  intros Hf. induction k as [|k IH]; [reflexivity|].
  rewrite frames_S, filter_app, Hf, IH. reflexivity.
Qed.

Lemma CompileShader_calls_no_upload (h : History) (type : Z)
      (source : string) :
  filter is_buffer_write (CompileShader_calls drv h type source) = [].
Proof.
  unfold CompileShader_calls.
  destruct (compile_status drv h type source =? GL_FALSE); reflexivity.
Qed.

Lemma CreateShader_calls_no_upload (h : History) (v f : string) :
  filter is_buffer_write (CreateShader_calls drv h v f) = [].
Proof.
  unfold CreateShader_calls. cbn [filter is_buffer_write].
  now rewrite !filter_app, !CompileShader_calls_no_upload.
Qed.

Lemma use_after_release_skip (p : Z) (a b : History) :
  filter (releases p) a = [] ->
  use_after_release p (a ++ b) = use_after_release p b.
Proof.
  induction a as [|c a IH]; intros Hf; [reflexivity|].
  cbn [filter] in Hf. cbn [app use_after_release].
  destruct (releases p c); [discriminate|].
  cbn [andb orb]. now apply IH.
Qed.

Lemma count_zero_filter (f : call -> bool) (h : History) :
  count f h = 0%nat -> filter f h = [].
Proof. unfold count. now destruct (filter f h). Qed.

End Runs.

(** * The claims of the specification *)

Section Claims.

Variable drv : Driver.

(** C1.  When the compile-status query answers [GL_FALSE], CompileShader
    reads the length of the compile log, allocates a scratch buffer of
    that length, fetches the log into it, prints the stage kind ("Vertex"
    for [GL_VERTEX_SHADER], "Fragment" otherwise) and then the log,
    deletes the stage handle and returns the null handle 0.  What it
    prints is never empty: the text opens with the line
    "Failed to compile ... Shader!". *)
Theorem CompileShader_failure (type : Z) (source : string) (h : History) :
  compile_status drv h type source = GL_FALSE ->
  let id := created_id drv h type in
  let length := log_length drv h type source in
  let message := log_message drv h type source in
  let kind :=
      if Z.eqb type GL_VERTEX_SHADER
      then "Vertex"%string else "Fragment"%string in
  CompileShader drv type source h
  = (0,
     h ++ [ glCreateShader type;
            glShaderSource id 1 [c_str source] NULL;
            glCompileShader id;
            glGetShaderiv id GL_COMPILE_STATUS;
            glGetShaderiv id GL_INFO_LOG_LENGTH;
            _malloca (scratch_size drv h type source);
            glGetShaderInfoLog id length;
            cout "Failed to compile ";
            cout kind;
            cout " Shader!";
            endl;
            cout message;
            endl;
            glDeleteShader id ])
  /\ (0 <= length -> scratch_size drv h type source = length)
  /\ (type = GL_VERTEX_SHADER ->
      stdout (calls_of (CompileShader drv type source) h)
      = ("Failed to compile Vertex Shader!" ++ newline
           ++ message ++ newline)%string)
  /\ (type <> GL_VERTEX_SHADER ->
      stdout (calls_of (CompileShader drv type source) h)
      = ("Failed to compile Fragment Shader!" ++ newline
           ++ message ++ newline)%string)
  /\ stdout (calls_of (CompileShader drv type source) h) <> EmptyString.
Proof.
  intros Hfail id length message kind.
  assert (Hrun : CompileShader drv type source h
                 = (0, h ++ query_calls drv h type source
                         ++ failure_calls drv h type source)).
  { rewrite CompileShader_run.
    unfold CompileShader_result, CompileShader_calls.
    now rewrite Hfail. }
  split; [exact Hrun|]. split.
  - intros Hlen. unfold scratch_size, sizeof_char. fold length.
    pose proof (to_int_range (ret_int drv (h ++ query_calls drv h type source)
                  (glGetShaderiv (created_id drv h type) GL_INFO_LOG_LENGTH)))
      as Hrange.
    fold (log_length drv h type source) in Hrange. fold length in Hrange.
    rewrite (to_size_t_small length) by lia.
    rewrite Z.mul_1_r. apply to_size_t_small. lia.
  - rewrite (calls_of_run _ _ _ _ Hrun).
    cbn [query_calls submit_calls failure_calls app stdout String.append].
    fold message. unfold stage_label. repeat split.
    + intros ->. reflexivity.
    + intros Hother. apply Z.eqb_neq in Hother. now rewrite Hother.
    + discriminate.
Qed.

(** C7, amended.  When the compile-status query answers anything but
    [GL_FALSE], CompileShader returns the handle that glCreateShader
    produced, unchanged, and makes no delete call.  The handle is not
    tested anywhere: the result is nonzero exactly when glCreateShader
    gave a nonzero handle. *)
Theorem CompileShader_success (type : Z) (source : string) (h : History) :
  compile_status drv h type source <> GL_FALSE ->
  let id := created_id drv h type in
  CompileShader drv type source h
  = (id,
     h ++ [ glCreateShader type;
            glShaderSource id 1 [c_str source] NULL;
            glCompileShader id;
            glGetShaderiv id GL_COMPILE_STATUS ])
  /\ count is_delete (calls_of (CompileShader drv type source) h) = 0%nat
  /\ (fst (CompileShader drv type source h) <> 0 <-> id <> 0).
Proof.
  intros Hok id.
  assert (Hrun : CompileShader drv type source h
                 = (id, h ++ query_calls drv h type source)).
  { rewrite CompileShader_run.
    unfold CompileShader_result, CompileShader_calls.
    apply Z.eqb_neq in Hok. rewrite Hok. now rewrite app_nil_r. }
  split; [exact Hrun|]. split.
  - now rewrite (calls_of_run _ _ _ _ Hrun).
  - rewrite Hrun. cbn [fst]. reflexivity.
Qed.

(** C9.  In the failure diagnostic the stage kind is printed as "Vertex"
    exactly when [type] equals [GL_VERTEX_SHADER], and as "Fragment" for
    every other value of [type], whatever that value denotes. *)
Theorem CompileShader_label (type : Z) (source : string) (h : History) :
  compile_status drv h type source = GL_FALSE ->
  exists label : string,
    printed (calls_of (CompileShader drv type source) h)
    = [ "Failed to compile "; label; " Shader!";
        log_message drv h type source ]%string
    /\ (type = GL_VERTEX_SHADER <-> label = "Vertex"%string)
    /\ (type <> GL_VERTEX_SHADER <-> label = "Fragment"%string).
Proof.
  intros Hfail. exists (stage_label type). split.
  - assert (Hrun : CompileShader drv type source h
                   = (0, h ++ query_calls drv h type source
                           ++ failure_calls drv h type source)).
    { rewrite CompileShader_run.
      unfold CompileShader_result, CompileShader_calls.
      now rewrite Hfail. }
    now rewrite (calls_of_run _ _ _ _ Hrun).
  - unfold stage_label.
    destruct (Z.eqb_spec type GL_VERTEX_SHADER) as [E|E]; split; split;
      solve [ reflexivity | discriminate | intros; exact E
            | intros; contradiction ].
Qed.

(** C2.  CreateShader makes exactly these calls, in this order: it
    creates a program, runs CompileShader on the vertex source, then on
    the fragment source, attaches both results to the program (a null
    result of a failed stage included), links the program, validates it
    and deletes both stage handles.  It returns the handle that
    glCreateProgram gave, whatever happened afterwards. *)
Theorem CreateShader_sequence (v f : string) (h : History) :
  let program := program_id drv h in
  let vs_run := CompileShader drv GL_VERTEX_SHADER v (h ++ [glCreateProgram]) in
  let fs_run := CompileShader drv GL_FRAGMENT_SHADER f (snd vs_run) in
  let vs := fst vs_run in
  let fs := fst fs_run in
  fst (CreateShader drv v f h) = program
  /\ calls_of (CreateShader drv v f) h
     = [ glCreateProgram ]
         ++ calls_of (CompileShader drv GL_VERTEX_SHADER v)
              (h ++ [glCreateProgram])
         ++ calls_of (CompileShader drv GL_FRAGMENT_SHADER f) (snd vs_run)
         ++ [ glAttachShader program vs;
              glAttachShader program fs;
              glLinkProgram program;
              glValidateProgram program;
              glDeleteShader vs;
              glDeleteShader fs ]
  /\ (compile_status drv (h ++ [glCreateProgram]) GL_VERTEX_SHADER v
      = GL_FALSE -> vs = 0)
  /\ (compile_status drv (snd vs_run) GL_FRAGMENT_SHADER f = GL_FALSE ->
      fs = 0).
Proof.
  intros program vs_run fs_run vs fs.
  subst vs fs fs_run vs_run.
  rewrite (calls_of_run _ _ _ _ (CreateShader_run drv v f h)).
  rewrite CreateShader_run.
  rewrite (calls_of_run _ _ _ _
             (CompileShader_run drv GL_VERTEX_SHADER v (h ++ [glCreateProgram]))).
  rewrite !CompileShader_run. cbn [fst snd].
  rewrite (calls_of_run _ _ _ _ (CompileShader_run drv GL_FRAGMENT_SHADER f _)).
  repeat split.
  - unfold CompileShader_result. now intros ->.
  - unfold CompileShader_result. now intros ->.
Qed.

(** ** main past its two early returns *)

Lemma main_run_ok (fuel : nat) (h : History) :
  init_result drv h <> 0 -> window_handle drv h <> NULL ->
  main drv fuel h
  = match first_close drv (window_handle drv h)
            (h ++ setup_calls drv h) fuel with
    | Some k =>
        (Some 0,
         h ++ setup_calls drv h
           ++ frames (window_handle drv h) k
           ++ glfwWindowShouldClose (window_handle drv h)
           :: shutdown_calls drv h)
    | None =>
        (None, h ++ setup_calls drv h ++ frames (window_handle drv h) fuel)
    end.
Proof.
  intros Hinit Hwin. rewrite main_run.
  apply Z.eqb_neq in Hinit. apply Z.eqb_neq in Hwin.
  now rewrite Hinit, Hwin.
Qed.

Lemma flag_set_first_close (window : Z) (h : History) (fuel k : nat) :
  close_flag drv window h k <> 0 -> (k < fuel)%nat ->
  exists k', first_close drv window h fuel = Some k'.
Proof.
  intros Hset Hk.
  destruct (first_close drv window h fuel) as [k'|] eqn:E; [now exists k'|].
  exfalso. apply Hset. now apply (first_close_none drv window fuel h).
Qed.

Lemma frames_draws (window : Z) (k : nat) :
  filter is_draw (frames window k) = repeat (glDrawArrays GL_TRIANGLES 0 3) k.
Proof.
  induction k as [|k IH]; [reflexivity|].
  rewrite frames_S, filter_app, IH. reflexivity.
Qed.

(** C4.  main exits with code -1 when glfwInit fails and when
    glfwCreateWindow fails, with code 0 when the window is closed, and
    with no other code. *)
Theorem main_exit_code (fuel : nat) (h : History) :
  (init_result drv h = 0 -> fst (main drv fuel h) = Some (-1))
  /\ (init_result drv h <> 0 -> window_handle drv h = NULL ->
      fst (main drv fuel h) = Some (-1))
  /\ (init_result drv h <> 0 -> window_handle drv h <> NULL ->
      forall k : nat,
        close_flag drv (window_handle drv h) (h ++ setup_calls drv h) k <> 0 ->
        (k < fuel)%nat ->
        fst (main drv fuel h) = Some 0)
  /\ (init_result drv h <> 0 -> window_handle drv h <> NULL ->
      (forall k : nat,
          (k < fuel)%nat ->
          close_flag drv (window_handle drv h) (h ++ setup_calls drv h) k = 0) ->
      fst (main drv fuel h) = None)
  /\ (forall code : Z,
        fst (main drv fuel h) = Some code -> code = -1 \/ code = 0)
  /\ (fst (main drv fuel h) = Some (-1) ->
      init_result drv h = 0 \/ window_handle drv h = NULL).
Proof.
  repeat split.
  - intros Hinit. rewrite main_run, Hinit. reflexivity.
  - intros Hinit Hwin. rewrite main_run, Hwin.
    apply Z.eqb_neq in Hinit. now rewrite Hinit.
  - intros Hinit Hwin k Hset Hk. rewrite main_run_ok by assumption.
    destruct (flag_set_first_close _ _ _ _ Hset Hk) as [k' ->]. reflexivity.
  - intros Hinit Hwin Hclear. rewrite main_run_ok by assumption.
    apply first_close_none in Hclear. now rewrite Hclear.
  - intros code. rewrite main_run.
    destruct (init_result drv h =? 0); [intros [= <-]; now left|].
    destruct (window_handle drv h =? NULL); [intros [= <-]; now left|].
    destruct (first_close _ _ _ _); [intros [= <-]; now right|discriminate].
  - rewrite main_run.
    destruct (Z.eqb_spec (init_result drv h) 0); [now left|].
    destruct (Z.eqb_spec (window_handle drv h) NULL); [now right|].
    destruct (first_close _ _ _ _); discriminate.
Qed.

(** C10.  When window creation fails main calls glfwTerminate and then
    returns -1; when glfwInit fails it returns -1 at once, glfwTerminate
    not called. *)
Theorem main_failure_paths (fuel : nat) (h : History) :
  (init_result drv h = 0 ->
   main drv fuel h = (Some (-1), h ++ [glfwInit])
   /\ count is_terminate (calls_of (main drv fuel) h) = 0%nat)
  /\ (init_result drv h <> 0 -> window_handle drv h = NULL ->
      main drv fuel h
      = (Some (-1),
         h ++ [ glfwInit;
                glfwCreateWindow 640 480 "Hello World" NULL NULL;
                glfwTerminate ])
      /\ count is_terminate (calls_of (main drv fuel) h) = 1%nat).
Proof.
  split.
  - intros Hinit.
    assert (Hrun : main drv fuel h = (Some (-1), h ++ [glfwInit])).
    { rewrite main_run, Hinit. reflexivity. }
    split; [exact Hrun|]. now rewrite (calls_of_run _ _ _ _ Hrun).
  - intros Hinit Hwin.
    assert (Hrun : main drv fuel h
                   = (Some (-1), h ++ [glfwInit; create_window; glfwTerminate])).
    { rewrite main_run, Hwin. apply Z.eqb_neq in Hinit. now rewrite Hinit. }
    split; [exact Hrun|]. now rewrite (calls_of_run _ _ _ _ Hrun).
Qed.

(** C8.  When glewInit does not answer [GLEW_OK], main prints "Error!"
    and goes on as usual: version line, buffer upload, shader build,
    glUseProgram, frame loop.  It does not leave with -1, and leaves with
    0 once the window is closed. *)
Theorem main_glew_failure (fuel : nat) (h : History) :
  init_result drv h <> 0 -> window_handle drv h <> NULL ->
  glew_status drv h <> GLEW_OK ->
  let window := window_handle drv h in
  (exists rest : History,
      calls_of (main drv fuel) h
      = [ glfwInit;
          glfwCreateWindow 640 480 "Hello World" NULL NULL;
          glfwMakeContextCurrent window;
          glewInit;
          cout "Error!";
          endl ]
          ++ version_calls drv h
          ++ buffer_calls drv h
          ++ CreateShader_calls drv (shader_history drv h)
               vertexShader fragmentShader
          ++ [ glUseProgram (shader_handle drv h) ]
          ++ rest
      /\ (fst (main drv fuel h) = None -> rest = frames window fuel)
      /\ (fst (main drv fuel h) = Some 0 ->
          exists k : nat,
            rest = frames window k
                     ++ [ glfwWindowShouldClose window;
                          glDeleteShader (shader_handle drv h);
                          glfwTerminate ]))
  /\ fst (main drv fuel h) <> Some (-1)
  /\ (forall k : nat,
        close_flag drv window (h ++ setup_calls drv h) k <> 0 ->
        (k < fuel)%nat ->
        fst (main drv fuel h) = Some 0).
Proof.
  intros Hinit Hwin Hglew window.
  assert (Hsetup : setup_calls drv h
                   = [ glfwInit; create_window; glfwMakeContextCurrent window;
                       glewInit; cout "Error!"; endl ]
                       ++ version_calls drv h ++ buffer_calls drv h
                       ++ CreateShader_calls drv (shader_history drv h)
                            vertexShader fragmentShader
                       ++ [ glUseProgram (shader_handle drv h) ]).
  { unfold setup_calls, glew_calls, context_calls.
    apply Z.eqb_neq in Hglew. rewrite Hglew. reflexivity. }
  pose proof (main_run_ok fuel h Hinit Hwin) as Hrun. fold window in Hrun.
  split; [|split].
  - destruct (first_close drv window (h ++ setup_calls drv h) fuel)
      as [k|] eqn:E.
    + exists (frames window k
                ++ glfwWindowShouldClose window :: shutdown_calls drv h).
      rewrite (calls_of_run _ _ _ _ Hrun), Hrun, Hsetup. cbn [fst].
      split; [now rewrite <- !app_assoc|].
      split; [discriminate|]. intros _. now exists k.
    + exists (frames window fuel).
      rewrite (calls_of_run _ _ _ _ Hrun), Hrun, Hsetup. cbn [fst].
      split; [now rewrite <- !app_assoc|].
      split; [reflexivity|discriminate].
  - rewrite Hrun. destruct (first_close _ _ _ _); discriminate.
  - intros k Hset Hk. rewrite Hrun.
    destruct (flag_set_first_close _ _ _ _ Hset Hk) as [k' ->]. reflexivity.
Qed.

(** C5.  Whenever main gets past window creation it uploads one vertex
    buffer: the six floats -0.5, -0.5, 0.0, 0.5, 0.5, -0.5 in this order,
    with a size of six floats (24 bytes).  However long the run lasts, no
    further call writes buffer data. *)
Theorem main_vertex_upload (fuel : nat) (h : History) :
  init_result drv h <> 0 -> window_handle drv h <> NULL ->
  filter is_buffer_write (calls_of (main drv fuel) h)
  = [ glBufferData GL_ARRAY_BUFFER (6 * sizeof_float)
        [ -1 # 2; -1 # 2; 0 # 1; 1 # 2; 1 # 2; -1 # 2 ]%Q
        GL_STATIC_DRAW ]
  /\ 6 * sizeof_float = 24.
Proof.
  intros Hinit Hwin. split; [|reflexivity].
  pose proof (main_run_ok fuel h Hinit Hwin) as Hrun.
  assert (Hsetup : filter is_buffer_write (setup_calls drv h)
                   = [ glBufferData GL_ARRAY_BUFFER (6 * sizeof_float)
                         positions GL_STATIC_DRAW ]).
  { unfold setup_calls, glew_calls.
    rewrite !filter_app, CreateShader_calls_no_upload.
    destruct (negb _); reflexivity. }
  destruct (first_close _ _ _ _) as [k|].
  - rewrite (calls_of_run _ _ _ _ Hrun), !filter_app, Hsetup.
    rewrite frames_filter_nil by reflexivity. reflexivity.
  - rewrite (calls_of_run _ _ _ _ Hrun), !filter_app, Hsetup.
    rewrite frames_filter_nil by reflexivity. reflexivity.
Qed.

(** C6.  The calls of the frame loop are a whole number of frames, each
    of them the close test, a clear, one draw of 3 vertices from index 0,
    a buffer swap and an event poll, in this order, followed by the one
    close test that ends the loop.  The loop ends if and only if the
    close flag is read as set at some point. *)
Theorem frame_loop_frames (fuel : nat) (window : Z) (h : History) :
  (exists k : nat,
      (k <= fuel)%nat
      /\ calls_of (frame_loop drv fuel window) h
         = List.concat
             (repeat [ glfwWindowShouldClose window;
                       glClear GL_COLOR_BUFFER_BIT;
                       glDrawArrays GL_TRIANGLES 0 3;
                       glfwSwapBuffers window;
                       glfwPollEvents ] k)
             ++ (if fst (frame_loop drv fuel window h)
                 then [glfwWindowShouldClose window] else [])
      /\ filter is_draw (calls_of (frame_loop drv fuel window) h)
         = repeat (glDrawArrays GL_TRIANGLES 0 3) k
      /\ (forall j : nat, (j < k)%nat -> close_flag drv window h j = 0)
      /\ (if fst (frame_loop drv fuel window h)
          then close_flag drv window h k <> 0
          else k = fuel))
  /\ ((exists n : nat, fst (frame_loop drv n window h) = true)
      <-> (exists k : nat, close_flag drv window h k <> 0)).
Proof.
  split.
  - pose proof (frame_loop_run drv fuel window h) as Hrun.
    destruct (first_close drv window h fuel) as [k|] eqn:E.
    + apply first_close_spec in E. destruct E as (Hk & Hset & Hclear).
      exists k. rewrite (calls_of_run _ _ _ _ Hrun), Hrun. cbn [fst].
      repeat split; [lia | | exact Hclear | exact Hset].
      rewrite filter_app, frames_draws. cbn. now rewrite app_nil_r.
    + exists fuel. rewrite (calls_of_run _ _ _ _ Hrun), Hrun. cbn [fst].
      repeat split; [lia | now rewrite app_nil_r | apply frames_draws |].
      now apply first_close_none.
  - split.
    + intros [n Hn]. rewrite frame_loop_run in Hn.
      destruct (first_close drv window h n) as [k|] eqn:E; [|discriminate].
      apply first_close_spec in E. exists k. tauto.
    + intros [k Hset]. exists (S k). rewrite frame_loop_run.
      destruct (flag_set_first_close window h (S k) k Hset (Nat.lt_succ_diag_r k))
        as [k' ->].
      reflexivity.
Qed.

(** C3, amended.  On a run that reaches shutdown, the calls of main end
    with the delete call on the program handle followed by glfwTerminate
    alone; glUseProgram and every frame come before it.  When no stage
    handle deleted while the program was built coincides with the program
    handle, that delete call is the only one on the program handle in
    the run, and no call that uses the program follows it. *)
Theorem main_release_at_shutdown (fuel : nat) (h : History) :
  fst (main drv fuel h) = Some 0 ->
  let window := window_handle drv h in
  let program := shader_handle drv h in
  exists k : nat,
    calls_of (main drv fuel) h
    = setup_calls drv h
        ++ frames window k
        ++ [ glfwWindowShouldClose window;
             glDeleteShader program;
             glfwTerminate ]
    /\ In (glUseProgram program) (setup_calls drv h)
    /\ (count (releases program)
          (CreateShader_calls drv (shader_history drv h)
             vertexShader fragmentShader) = 0%nat ->
        count (releases program) (calls_of (main drv fuel) h) = 1%nat
        /\ use_after_release program (calls_of (main drv fuel) h) = false).
Proof.
  intros Hexit window program.
  pose proof (main_run drv fuel h) as Hrun. rewrite Hrun in Hexit.
  destruct (init_result drv h =? 0); [discriminate|].
  destruct (window_handle drv h =? NULL); [discriminate|].
  fold window in Hrun, Hexit.
  destruct (first_close drv window (h ++ setup_calls drv h) fuel) as [k|];
    [|discriminate].
  exists k. rewrite (calls_of_run _ _ _ _ Hrun).
  unfold shutdown_calls. fold program.
  split; [reflexivity|]. split.
  - unfold setup_calls. fold program. rewrite !in_app_iff.
    do 5 right. now left.
  - intros Hfresh.
    assert (Hsetup : filter (releases program) (setup_calls drv h) = []).
    { unfold setup_calls, glew_calls. rewrite !filter_app.
      rewrite (count_zero_filter _ _ Hfresh).
      destruct (negb _); reflexivity. }
    assert (Hframes : filter (releases program) (frames window k) = []).
    { now apply frames_filter_nil. }
    split.
    + unfold count. rewrite !filter_app, Hsetup, Hframes.
      cbn. now rewrite Z.eqb_refl.
    + rewrite use_after_release_skip by exact Hsetup.
      rewrite use_after_release_skip by exact Hframes.
      cbn. now rewrite Z.eqb_refl.
Qed.

End Claims.

(** * Concrete runs *)

(** A stage that fails to compile, on the sample driver. *)
Lemma CompileShader_failure_witness :
  let drv := sample_driver (healthy 1) in
  compile_status drv [] GL_VERTEX_SHADER "oops" = GL_FALSE
  /\ fst (CompileShader drv GL_VERTEX_SHADER "oops" []) = 0
  /\ scratch_size drv [] GL_VERTEX_SHADER "oops" = 25
  /\ stdout (calls_of (CompileShader drv GL_VERTEX_SHADER "oops") [])
     = ("Failed to compile Vertex Shader!" ++ newline
          ++ sample_log ++ newline)%string
  /\ stdout (calls_of (CompileShader drv GL_VERTEX_SHADER "oops") [])
     <> EmptyString.
Proof.
  intros drv.
  assert (Hfail : compile_status drv [] GL_VERTEX_SHADER "oops" = GL_FALSE)
    by reflexivity.
  destruct (CompileShader_failure drv GL_VERTEX_SHADER "oops" [] Hfail)
    as (Hrun & Hsize & Hvertex & _ & Hout).
  split; [exact Hfail|]. split; [now rewrite Hrun|].
  split; [|split; [|exact Hout]].
  - rewrite Hsize; [reflexivity | vm_compute; discriminate].
  - rewrite (Hvertex eq_refl). reflexivity.
Defined.

(** A stage that compiles, on the sample driver. *)
Lemma CompileShader_success_witness :
  let drv := sample_driver (healthy 1) in
  compile_status drv [] GL_FRAGMENT_SHADER fragmentShader <> GL_FALSE
  /\ created_id drv [] GL_FRAGMENT_SHADER <> 0
  /\ fst (CompileShader drv GL_FRAGMENT_SHADER fragmentShader []) <> 0
  /\ count is_delete
       (calls_of (CompileShader drv GL_FRAGMENT_SHADER fragmentShader) [])
     = 0%nat.
Proof.
  intros drv.
  assert (Hok : compile_status drv [] GL_FRAGMENT_SHADER fragmentShader
                <> GL_FALSE) by (vm_compute; discriminate).
  assert (Hid : created_id drv [] GL_FRAGMENT_SHADER <> 0)
    by (vm_compute; discriminate).
  destruct (CompileShader_success drv GL_FRAGMENT_SHADER fragmentShader [] Hok)
    as (_ & Hdel & Hnz).
  split; [exact Hok|]. split; [exact Hid|].
  split; [exact (proj2 Hnz Hid) | exact Hdel].
Defined.

(** C7 as the specification words it does not hold: where glCreateShader
    answers 0 and the status read is not [GL_FALSE], CompileShader takes
    the success path on valid vertex source and returns the null handle,
    having deleted nothing. *)
Lemma CompileShader_success_null_counterexample :
  let drv := shaderless_driver in
  compile_status drv [] GL_VERTEX_SHADER vertexShader <> GL_FALSE
  /\ count is_delete
       (calls_of (CompileShader drv GL_VERTEX_SHADER vertexShader) [])
     = 0%nat
  /\ ~ fst (CompileShader drv GL_VERTEX_SHADER vertexShader []) <> 0.
Proof.
  intros drv. split; [vm_compute; discriminate|].
  split; [reflexivity|]. intros Hnz. apply Hnz. reflexivity.
Qed.

(** A type that is neither a vertex nor a fragment stage (0x8DD9 is
    GL_GEOMETRY_SHADER) is reported as "Fragment". *)
Lemma CompileShader_label_witness :
  let drv := sample_driver (healthy 1) in
  compile_status drv [] 0x8DD9 "oops" = GL_FALSE
  /\ exists label : string,
       nth_error (printed (calls_of (CompileShader drv 0x8DD9 "oops") []))
         1 = Some label
       /\ label = "Fragment"%string.
Proof.
  intros drv.
  assert (Hfail : compile_status drv [] 0x8DD9 "oops" = GL_FALSE)
    by reflexivity.
  destruct (CompileShader_label drv 0x8DD9 "oops" [] Hfail)
    as (label & Hprinted & _ & Hother).
  split; [exact Hfail|]. exists label. split.
  - now rewrite Hprinted.
  - apply Hother. vm_compute. discriminate.
Defined.

(** A program built from a broken vertex stage: the null handle is
    attached all the same. *)
Lemma CreateShader_sequence_witness :
  let drv := sample_driver (healthy 1) in
  compile_status drv [glCreateProgram] GL_VERTEX_SHADER "oops" = GL_FALSE
  /\ fst (CompileShader drv GL_VERTEX_SHADER "oops" [glCreateProgram]) = 0
  /\ fst (CreateShader drv "oops" fragmentShader []) = 1.
Proof.
  intros drv.
  assert (Hfail : compile_status drv [glCreateProgram] GL_VERTEX_SHADER "oops"
                  = GL_FALSE) by reflexivity.
  destruct (CreateShader_sequence drv "oops" fragmentShader [])
    as (Hprog & _ & Hvs & _).
  split; [exact Hfail|]. split; [exact (Hvs Hfail)|].
  rewrite Hprog. reflexivity.
Defined.

(** The three exits of main. *)
Lemma main_exit_code_witness :
  fst (main (sample_driver no_glfw) 3 []) = Some (-1)
  /\ fst (main (sample_driver no_window) 3 []) = Some (-1)
  /\ fst (main (sample_driver (healthy 2)) 3 []) = Some 0.
Proof.
  split; [|split].
  - destruct (main_exit_code (sample_driver no_glfw) 3 []) as (Hinit & _).
    apply Hinit. reflexivity.
  - destruct (main_exit_code (sample_driver no_window) 3 [])
      as (_ & Hwindow & _).
    apply Hwindow; [vm_compute; discriminate | reflexivity].
  - destruct (main_exit_code (sample_driver (healthy 2)) 3 [])
      as (_ & _ & Hclosed & _).
    apply (Hclosed ltac:(vm_compute; discriminate)
             ltac:(vm_compute; discriminate) 2%nat);
      [vm_compute; discriminate | lia].
Defined.

(** The two early returns of main. *)
Lemma main_failure_paths_witness :
  main (sample_driver no_glfw) 3 [] = (Some (-1), [glfwInit])
  /\ main (sample_driver no_window) 3 []
     = (Some (-1),
        [ glfwInit; glfwCreateWindow 640 480 "Hello World" NULL NULL;
          glfwTerminate ]).
Proof.
  split.
  - destruct (main_failure_paths (sample_driver no_glfw) 3 []) as (Hinit & _).
    apply Hinit. reflexivity.
  - destruct (main_failure_paths (sample_driver no_window) 3 [])
      as (_ & Hwindow).
    apply Hwindow; [vm_compute; discriminate | reflexivity].
Defined.

(** A run on which GLEW fails to initialise. *)
Lemma main_glew_failure_witness :
  let drv := sample_driver no_glew in
  glew_status drv [] <> GLEW_OK
  /\ fst (main drv 3 []) <> Some (-1)
  /\ fst (main drv 3 []) = Some 0.
Proof.
  intros drv.
  assert (Hinit : init_result drv [] <> 0) by (vm_compute; discriminate).
  assert (Hwin : window_handle drv [] <> NULL) by (vm_compute; discriminate).
  assert (Hglew : glew_status drv [] <> GLEW_OK) by (vm_compute; discriminate).
  destruct (main_glew_failure drv 3 [] Hinit Hwin Hglew) as (_ & Hexit & Hzero).
  split; [exact Hglew|]. split; [exact Hexit|].
  apply (Hzero 1%nat); [vm_compute; discriminate | lia].
Defined.

(** The upload of a run cut short after one frame. *)
Lemma main_vertex_upload_witness :
  let drv := sample_driver (healthy 2) in
  filter is_buffer_write (calls_of (main drv 1) [])
  = [ glBufferData GL_ARRAY_BUFFER 24
        [ -1 # 2; -1 # 2; 0 # 1; 1 # 2; 1 # 2; -1 # 2 ]%Q GL_STATIC_DRAW ].
Proof.
  intros drv.
  apply (main_vertex_upload drv 1 []); vm_compute; discriminate.
Defined.

(** Two frames, then the window closes. *)
Lemma frame_loop_frames_witness :
  let drv := sample_driver (healthy 2) in
  exists n : nat, fst (frame_loop drv n 0x1000 []) = true.
Proof.
  intros drv.
  apply (frame_loop_frames drv 0 0x1000 []).
  exists 2%nat. vm_compute. discriminate.
Defined.

(** A run that reaches shutdown after two frames. *)
Lemma main_release_at_shutdown_witness :
  let drv := sample_driver (healthy 2) in
  fst (main drv 5 []) = Some 0
  /\ count (releases (shader_handle drv [])) (calls_of (main drv 5) [])
     = 1%nat
  /\ use_after_release (shader_handle drv []) (calls_of (main drv 5) [])
     = false.
Proof.
  intros drv.
  assert (Hexit : fst (main drv 5 []) = Some 0) by reflexivity.
  destruct (main_release_at_shutdown drv 5 [] Hexit) as (k & _ & _ & Hfresh).
  split; [exact Hexit|]. apply Hfresh. reflexivity.
Defined.

(** C3 as the specification words it does not hold: on the same run the
    program handle (1) is released once, and nothing that uses the
    program comes after the release. *)
Lemma main_use_after_release_counterexample :
  let drv := sample_driver (healthy 2) in
  shader_handle drv [] = 1
  /\ fst (main drv 5 []) = Some 0
  /\ ~ (count (releases 1) (calls_of (main drv 5) []) = 1%nat
        /\ use_after_release 1 (calls_of (main drv 5) []) = true).
Proof.
  intros drv. split; [reflexivity|]. split; [reflexivity|].
  intros [_ Huse]. vm_compute in Huse. discriminate.
Qed.

(** * Further properties of the three functions *)

Section Further.

Variable drv : Driver.

(** ** Text and counts over appended histories *)

Lemma append_assoc (a b c : string) :
  ((a ++ b) ++ c = a ++ b ++ c)%string.
Proof. induction a as [|x a IH]; cbn; [reflexivity | now rewrite IH]. Qed.

Lemma append_empty (a b : string) :
  (a ++ b)%string = EmptyString <-> a = EmptyString /\ b = EmptyString.
Proof.
  destruct a; cbn; split.
  - now intros ->.
  - now intros [_ ->].
  - discriminate.
  - intros [E _]. discriminate.
Qed.

Lemma append_empty_r (a : string) : (a ++ EmptyString)%string = a.
Proof. induction a as [|x a IH]; cbn; [reflexivity | now rewrite IH]. Qed.

Lemma stdout_app (a b : History) :
  stdout (a ++ b) = (stdout a ++ stdout b)%string.
Proof.
  induction a as [|c a IH]; [reflexivity|].
  destruct c; cbn [app stdout]; rewrite IH; try reflexivity;
    now rewrite append_assoc.
Qed.

Lemma count_app (f : call -> bool) (a b : History) :
  count f (a ++ b) = (count f a + count f b)%nat.
Proof. unfold count. now rewrite filter_app, length_app. Qed.

Lemma frames_count (f : call -> bool) (window : Z) (k : nat) :
  count f (frames window k) = (k * count f (frame_calls window))%nat.
Proof.
  induction k as [|k IH]; [reflexivity|].
  rewrite frames_S, count_app, IH. lia.
Qed.

Lemma frames_stdout (window : Z) (k : nat) :
  stdout (frames window k) = EmptyString.
Proof.
  induction k as [|k IH]; [reflexivity|].
  rewrite frames_S, stdout_app, IH. reflexivity.
Qed.

(** A call satisfying [f] cannot sit in a stretch that has none. *)
Lemma split_after_quiet (f : call -> bool) (a b pre post : History)
      (c : call) :
  filter f a = [] -> f c = true -> a ++ b = pre ++ c :: post ->
  exists pre', pre = a ++ pre' /\ b = pre' ++ c :: post.
Proof.
  revert pre. induction a as [|x a IH]; intros pre Hquiet Hc E.
  - now exists pre.
  - cbn [filter] in Hquiet. destruct (f x) eqn:Hx; [discriminate|].
    destruct pre as [|y pre]; cbn [app] in E.
    + injection E as -> _. congruence.
    + injection E as -> E.
      destruct (IH pre Hquiet Hc E) as (pre' & -> & Hb).
      now exists pre'.
Qed.

Lemma filter_nil_no_split (f : call -> bool) (l pre post : History)
      (c : call) :
  filter f l = [] -> f c = true -> l <> pre ++ c :: post.
Proof.
  intros Hquiet Hc ->. rewrite filter_app in Hquiet. cbn [filter] in Hquiet.
  rewrite Hc in Hquiet. now destruct (filter f pre).
Qed.

(** ** The two shapes of a CompileShader run *)

Lemma CompileShader_calls_failed (h : History) (type : Z) (source : string) :
  compile_status drv h type source = GL_FALSE ->
  CompileShader_calls drv h type source
  = query_calls drv h type source ++ failure_calls drv h type source.
Proof. intros E. unfold CompileShader_calls. now rewrite E. Qed.

Lemma CompileShader_calls_passed (h : History) (type : Z) (source : string) :
  compile_status drv h type source <> GL_FALSE ->
  CompileShader_calls drv h type source = query_calls drv h type source.
Proof.
  intros E. unfold CompileShader_calls. apply Z.eqb_neq in E.
  now rewrite E, app_nil_r.
Qed.

Lemma CompileShader_calls_of (h : History) (type : Z) (source : string) :
  calls_of (CompileShader drv type source) h
  = CompileShader_calls drv h type source.
Proof. apply (calls_of_run _ _ _ _ (CompileShader_run drv type source h)). Qed.

Lemma CreateShader_calls_of (h : History) (v f : string) :
  calls_of (CreateShader drv v f) h = CreateShader_calls drv h v f.
Proof. apply (calls_of_run _ _ _ _ (CreateShader_run drv v f h)). Qed.

Lemma CompileShader_calls_silent (h : History) (type : Z) (source : string) :
  stdout (CompileShader_calls drv h type source) = EmptyString
  <-> compile_status drv h type source <> GL_FALSE.
Proof.
  destruct (Z.eq_dec (compile_status drv h type source) GL_FALSE) as [E|E].
  - rewrite (CompileShader_calls_failed _ _ _ E). split; [|contradiction].
    cbn. discriminate.
  - rewrite (CompileShader_calls_passed _ _ _ E). split; [now intros _|].
    intros _. reflexivity.
Qed.

Lemma CompileShader_snd (h : History) (type : Z) (source : string) :
  snd (CompileShader drv type source h)
  = h ++ CompileShader_calls drv h type source.
Proof. now rewrite CompileShader_run. Qed.

(** ** CompileShader *)

(** X1.  CompileShader returns a nonzero handle exactly when the
    compile-status query did not answer [GL_FALSE] and glCreateShader
    gave a nonzero handle; a result of 0 covers both a failed compile and
    a shader that could not be created. *)
Theorem CompileShader_nonzero_iff (type : Z) (source : string) (h : History) :
  fst (CompileShader drv type source h) <> 0
  <-> compile_status drv h type source <> GL_FALSE
      /\ created_id drv h type <> 0.
Proof.
  rewrite CompileShader_run. cbn [fst]. unfold CompileShader_result.
  destruct (Z.eqb_spec (compile_status drv h type source) GL_FALSE) as [E|E].
  - split; [congruence | intros [H _]; contradiction].
  - tauto.
Qed.

(** X2.  CompileShader writes to standard output exactly when the
    compile-status query answered [GL_FALSE]: a stage that compiles is
    built in silence. *)
Theorem CompileShader_silent_iff (type : Z) (source : string) (h : History) :
  stdout (calls_of (CompileShader drv type source) h) = EmptyString
  <-> compile_status drv h type source <> GL_FALSE.
Proof. rewrite CompileShader_calls_of. apply CompileShader_calls_silent. Qed.

(** ** CreateShader *)

(** X3.  No stage handle outlives CreateShader: the handle glCreateShader
    gave for the vertex stage and the one it gave for the fragment stage
    are both passed to glDeleteShader before CreateShader returns,
    whether the stage compiled or not. *)
Theorem CreateShader_deletes_stages (v f : string) (h : History) :
  let vs_start := h ++ [glCreateProgram] in
  let fs_start := snd (CompileShader drv GL_VERTEX_SHADER v vs_start) in
  In (glDeleteShader (created_id drv vs_start GL_VERTEX_SHADER))
     (calls_of (CreateShader drv v f) h)
  /\ In (glDeleteShader (created_id drv fs_start GL_FRAGMENT_SHADER))
        (calls_of (CreateShader drv v f) h).
Proof.
  intros vs_start fs_start. subst fs_start vs_start.
  rewrite CreateShader_calls_of, CompileShader_snd.
  unfold CreateShader_calls, link_calls, vs_id, fs_id, fs_history, vs_history,
    CompileShader_result, CompileShader_calls.
  set (hv := h ++ [glCreateProgram]).
  set (sv := compile_status drv hv GL_VERTEX_SHADER v).
  set (hf := hv ++ query_calls drv hv GL_VERTEX_SHADER v
                ++ (if sv =? GL_FALSE
                    then failure_calls drv hv GL_VERTEX_SHADER v else [])).
  set (sf := compile_status drv hf GL_FRAGMENT_SHADER f).
  split.
  - right. rewrite !in_app_iff.
    destruct (sv =? GL_FALSE).
    + left. right. unfold failure_calls. cbn. tauto.
    + right. right. cbn. tauto.
  - right. rewrite !in_app_iff.
    destruct (sf =? GL_FALSE).
    + right. left. right. unfold failure_calls. cbn. tauto.
    + right. right. cbn. tauto.
Qed.

(** X4.  CreateShader makes two delete calls, and one more for every
    stage that failed to compile: the failed stage is deleted inside
    CompileShader and the null handle it returned is deleted again at the
    end. *)
Theorem CreateShader_delete_count (v f : string) (h : History) :
  let vs_start := h ++ [glCreateProgram] in
  let fs_start := snd (CompileShader drv GL_VERTEX_SHADER v vs_start) in
  count is_delete (calls_of (CreateShader drv v f) h)
  = (2 + Nat.b2n
           (Z.eqb (compile_status drv vs_start GL_VERTEX_SHADER v) GL_FALSE)
       + Nat.b2n
           (Z.eqb (compile_status drv fs_start GL_FRAGMENT_SHADER f) GL_FALSE))
      %nat
  /\ (compile_status drv vs_start GL_VERTEX_SHADER v = GL_FALSE
      \/ compile_status drv fs_start GL_FRAGMENT_SHADER f = GL_FALSE ->
      In (glDeleteShader 0) (calls_of (CreateShader drv v f) h)).
Proof.
  intros vs_start fs_start. subst fs_start vs_start.
  rewrite CreateShader_calls_of, CompileShader_snd.
  unfold CreateShader_calls, link_calls, vs_id, fs_id, fs_history, vs_history,
    CompileShader_result, CompileShader_calls.
  set (hv := h ++ [glCreateProgram]).
  set (sv := compile_status drv hv GL_VERTEX_SHADER v).
  set (hf := hv ++ query_calls drv hv GL_VERTEX_SHADER v
                ++ (if sv =? GL_FALSE
                    then failure_calls drv hv GL_VERTEX_SHADER v else [])).
  set (sf := compile_status drv hf GL_FRAGMENT_SHADER f).
  split.
  - change (glCreateProgram :: ?l) with ([glCreateProgram] ++ l).
    rewrite !count_app.
    destruct (sv =? GL_FALSE); destruct (sf =? GL_FALSE); reflexivity.
  - intros Hfail. right. rewrite !in_app_iff. right. right.
    destruct Hfail as [E|E]; rewrite E; cbn; tauto.
Qed.

(** X5.  What CreateShader prints is the diagnostic of the vertex stage
    followed by that of the fragment stage; it prints nothing exactly
    when both stages compile. *)
Theorem CreateShader_stdout (v f : string) (h : History) :
  let vs_start := h ++ [glCreateProgram] in
  let fs_start := snd (CompileShader drv GL_VERTEX_SHADER v vs_start) in
  stdout (calls_of (CreateShader drv v f) h)
  = (stdout (calls_of (CompileShader drv GL_VERTEX_SHADER v) vs_start)
       ++ stdout (calls_of (CompileShader drv GL_FRAGMENT_SHADER f) fs_start))
      %string
  /\ (stdout (calls_of (CreateShader drv v f) h) = EmptyString
      <-> compile_status drv vs_start GL_VERTEX_SHADER v <> GL_FALSE
          /\ compile_status drv fs_start GL_FRAGMENT_SHADER f <> GL_FALSE).
Proof.
  intros vs_start fs_start.
  assert (Hout : stdout (calls_of (CreateShader drv v f) h)
                 = (stdout (calls_of (CompileShader drv GL_VERTEX_SHADER v)
                              vs_start)
                      ++ stdout (calls_of
                                   (CompileShader drv GL_FRAGMENT_SHADER f)
                                   fs_start))%string).
  { subst fs_start vs_start.
    rewrite CreateShader_calls_of, !CompileShader_calls_of, CompileShader_snd.
    unfold CreateShader_calls, link_calls, fs_history, vs_history.
    cbn [stdout]. rewrite !stdout_app. cbn [stdout].
    now rewrite append_empty_r. }
  split; [exact Hout|].
  rewrite Hout, append_empty, !CompileShader_calls_of.
  now rewrite !CompileShader_calls_silent.
Qed.

(** ** main *)

(** Settles a goal about a fixed stretch of calls by going through the
    branches the stretch depends on. *)
Ltac by_branches :=
  repeat match goal with
         | |- context [if ?b then _ else _] => destruct b
         end;
  reflexivity.

Ltac quiet_setup :=
  unfold setup_calls, glew_calls, CreateShader_calls, CompileShader_calls;
  by_branches.

(** The four ways a run of main can go. *)
Lemma main_cases (fuel : nat) (h : History) :
  let window := window_handle drv h in
  (init_result drv h = 0
   /\ main drv fuel h = (Some (-1), h ++ [glfwInit]))
  \/ (init_result drv h <> 0 /\ window = NULL
      /\ main drv fuel h
         = (Some (-1), h ++ [glfwInit; create_window; glfwTerminate]))
  \/ (init_result drv h <> 0 /\ window <> NULL
      /\ exists k : nat,
           first_close drv window (h ++ setup_calls drv h) fuel = Some k
           /\ main drv fuel h
              = (Some 0,
                 h ++ setup_calls drv h ++ frames window k
                   ++ glfwWindowShouldClose window :: shutdown_calls drv h))
  \/ (init_result drv h <> 0 /\ window <> NULL
      /\ first_close drv window (h ++ setup_calls drv h) fuel = None
      /\ main drv fuel h
         = (None, h ++ setup_calls drv h ++ frames window fuel)).
Proof.
  intros window. rewrite main_run. fold window.
  destruct (Z.eqb_spec (init_result drv h) 0) as [Hinit|Hinit];
    [left; now split|right].
  destruct (Z.eqb_spec window NULL) as [Hwin|Hwin];
    [left; now repeat split|right].
  destruct (first_close drv window (h ++ setup_calls drv h) fuel) as [k|].
  - left. repeat split; try assumption. now exists k.
  - right. now repeat split.
Qed.

(** X6.  Past window creation, what main prints is the line "Error!" if
    GLEW failed, then the OpenGL version line, then whatever the shader
    build printed; the frame loop and the shutdown print nothing, however
    long the run. *)
Theorem main_stdout (fuel : nat) (h : History) :
  init_result drv h <> 0 -> window_handle drv h <> NULL ->
  stdout (calls_of (main drv fuel) h)
  = ((if Z.eqb (glew_status drv h) GLEW_OK then EmptyString
      else "Error!" ++ newline)
       ++ version_string drv h ++ newline
       ++ stdout (calls_of (CreateShader drv vertexShader fragmentShader)
                    (shader_history drv h)))%string.
Proof.
  intros Hinit Hwin.
  assert (Hsetup : stdout (setup_calls drv h)
                   = ((if Z.eqb (glew_status drv h) GLEW_OK then EmptyString
                       else "Error!" ++ newline)
                        ++ version_string drv h ++ newline
                        ++ stdout (CreateShader_calls drv (shader_history drv h)
                                     vertexShader fragmentShader))%string).
  { unfold setup_calls, glew_calls, version_calls, context_calls,
      buffer_calls.
    destruct (glew_status drv h =? GLEW_OK); cbn [negb];
      repeat first [rewrite stdout_app | progress cbn [stdout]];
      rewrite ?append_empty_r, ?append_assoc.
    all: reflexivity. }
  rewrite CreateShader_calls_of, <- Hsetup.
  destruct (main_cases fuel h)
    as [[E _]|[(_ & E & _)|[(_ & _ & k & _ & Hrun)|(_ & _ & _ & Hrun)]]];
    try contradiction;
    rewrite (calls_of_run _ _ _ _ Hrun), !stdout_app, frames_stdout;
    cbn; now rewrite append_empty_r.
Qed.

(** X7.  A run of main that got past glfwInit and returned has called
    glfwTerminate exactly once, as its last call; while the frame loop
    is still running glfwTerminate has not been called. *)
Theorem main_terminate_last (fuel : nat) (h : History) :
  init_result drv h <> 0 ->
  (forall code : Z,
      fst (main drv fuel h) = Some code ->
      exists before : History,
        calls_of (main drv fuel) h = before ++ [glfwTerminate]
        /\ count is_terminate before = 0%nat)
  /\ (fst (main drv fuel h) = None ->
      count is_terminate (calls_of (main drv fuel) h) = 0%nat).
Proof.
  intros Hinit.
  assert (Hsetup : count is_terminate (setup_calls drv h) = 0%nat).
  { unfold count. quiet_setup. }
  destruct (main_cases fuel h)
    as [[E _]|[(_ & _ & Hrun)|[(_ & _ & k & _ & Hrun)|(_ & _ & _ & Hrun)]]];
    [contradiction| | |]; rewrite (calls_of_run _ _ _ _ Hrun), Hrun; cbn [fst].
  - split; [|discriminate]. intros code _.
    now exists [glfwInit; create_window].
  - split; [|discriminate]. intros code _.
    exists (setup_calls drv h ++ frames (window_handle drv h) k
              ++ [ glfwWindowShouldClose (window_handle drv h);
                   glDeleteShader (shader_handle drv h) ]).
    split; [unfold shutdown_calls; now rewrite <- !app_assoc|].
    rewrite !count_app, Hsetup, frames_count. cbn. lia.
  - split; [discriminate|]. intros _.
    rewrite !count_app, Hsetup, frames_count. cbn. lia.
Qed.

(** X8.  Past window creation, a run of main that has drawn k frames has
    made k clear calls, k draw calls, k buffer swaps and k event polls;
    it has read the close flag k + 1 times if it returned and k times,
    all the fuel, if it is still running. *)
Theorem main_frame_counts (fuel : nat) (h : History) :
  init_result drv h <> 0 -> window_handle drv h <> NULL ->
  let calls := calls_of (main drv fuel) h in
  exists k : nat,
    (k <= fuel)%nat
    /\ count is_clear calls = k
    /\ count is_draw calls = k
    /\ count is_swap calls = k
    /\ count is_poll calls = k
    /\ match fst (main drv fuel h) with
       | Some _ => count is_close_test calls = S k
       | None => count is_close_test calls = k /\ k = fuel
       end.
Proof.
  intros Hinit Hwin calls. subst calls.
  assert (Hclear : count is_clear (setup_calls drv h) = 0%nat)
    by (unfold count; quiet_setup).
  assert (Hdraw : count is_draw (setup_calls drv h) = 0%nat)
    by (unfold count; quiet_setup).
  assert (Hswap : count is_swap (setup_calls drv h) = 0%nat)
    by (unfold count; quiet_setup).
  assert (Hpoll : count is_poll (setup_calls drv h) = 0%nat)
    by (unfold count; quiet_setup).
  assert (Htest : count is_close_test (setup_calls drv h) = 0%nat)
    by (unfold count; quiet_setup).
  destruct (main_cases fuel h)
    as [[E _]|[(_ & E & _)|[(_ & _ & k & Hk & Hrun)|(_ & _ & _ & Hrun)]]];
    try contradiction; rewrite (calls_of_run _ _ _ _ Hrun), Hrun; cbn [fst].
  - exists k. apply first_close_spec in Hk. destruct Hk as (Hk & _).
    rewrite !count_app, Hclear, Hdraw, Hswap, Hpoll, Htest, !frames_count.
    cbn. repeat split; lia.
  - exists fuel.
    rewrite !count_app, Hclear, Hdraw, Hswap, Hpoll, Htest, !frames_count.
    cbn. repeat split; lia.
Qed.

Lemma setup_calls_context (h : History) :
  exists rest : History, setup_calls drv h = context_calls drv h ++ rest.
Proof. unfold setup_calls. eauto. Qed.

(** X9.  main never draws from an unprepared pipeline: before any draw
    call of a run the vertex data has been uploaded, the attribute layout
    has been enabled and described, and the shader program has been
    bound. *)
Theorem main_draw_after_setup (fuel : nat) (h before after : History)
        (c : call) :
  calls_of (main drv fuel) h = before ++ c :: after ->
  is_draw c = true ->
  In (glBufferData GL_ARRAY_BUFFER (6 * sizeof_float) positions GL_STATIC_DRAW)
     before
  /\ In (glEnableVertexAttribArray 0) before
  /\ In (glVertexAttribPointer 0 2 GL_FLOAT GL_FALSE (sizeof_float * 2) 0)
        before
  /\ In (glUseProgram (shader_handle drv h)) before.
Proof.
  intros Hsplit Hdraw.
  assert (Hquiet : filter is_draw (setup_calls drv h) = []) by quiet_setup.
  assert (Hin : forall rest : History,
             setup_calls drv h ++ rest = before ++ c :: after ->
             In (glBufferData GL_ARRAY_BUFFER (6 * sizeof_float) positions
                   GL_STATIC_DRAW) before
             /\ In (glEnableVertexAttribArray 0) before
             /\ In (glVertexAttribPointer 0 2 GL_FLOAT GL_FALSE
                      (sizeof_float * 2) 0) before
             /\ In (glUseProgram (shader_handle drv h)) before).
  { intros rest E.
    destruct (split_after_quiet _ _ _ _ _ _ Hquiet Hdraw E) as (pre & -> & _).
    unfold setup_calls, buffer_calls. rewrite !in_app_iff. cbn [In].
    repeat split; tauto. }
  destruct (main_cases fuel h)
    as [[_ Hrun]|[(_ & _ & Hrun)|[(_ & _ & k & _ & Hrun)|(_ & _ & _ & Hrun)]]];
    rewrite (calls_of_run _ _ _ _ Hrun) in Hsplit.
  - exfalso. now apply (filter_nil_no_split is_draw _ before after c) in Hsplit.
  - exfalso. now apply (filter_nil_no_split is_draw _ before after c) in Hsplit.
  - now apply Hin in Hsplit.
  - now apply Hin in Hsplit.
Qed.

(** X10.  main makes no OpenGL call without a context: before any call
    into OpenGL the window has been created, found non-null and made
    current.  On the two early returns no OpenGL call is made at all. *)
Theorem main_gl_after_context (fuel : nat) (h before after : History)
        (c : call) :
  calls_of (main drv fuel) h = before ++ c :: after ->
  is_gl c = true ->
  init_result drv h <> 0
  /\ window_handle drv h <> NULL
  /\ In (glfwMakeContextCurrent (window_handle drv h)) before.
Proof.
  intros Hsplit Hgl.
  assert (Hquiet : filter is_gl (context_calls drv h) = []) by reflexivity.
  assert (Hin : forall rest : History,
             setup_calls drv h ++ rest = before ++ c :: after ->
             In (glfwMakeContextCurrent (window_handle drv h)) before).
  { intros rest E. destruct (setup_calls_context h) as [more Hmore].
    rewrite Hmore, <- app_assoc in E.
    destruct (split_after_quiet _ _ _ _ _ _ Hquiet Hgl E) as (pre & -> & _).
    unfold context_calls. rewrite in_app_iff. cbn [In]. tauto. }
  destruct (main_cases fuel h)
    as [[_ Hrun]|[(_ & _ & Hrun)
                 |[(Hi & Hw & k & _ & Hrun)|(Hi & Hw & _ & Hrun)]]];
    rewrite (calls_of_run _ _ _ _ Hrun) in Hsplit.
  - exfalso. now apply (filter_nil_no_split is_gl _ before after c) in Hsplit.
  - exfalso. now apply (filter_nil_no_split is_gl _ before after c) in Hsplit.
  - repeat split; try assumption. now apply Hin in Hsplit.
  - repeat split; try assumption. now apply Hin in Hsplit.
Qed.

(** X11.  Every GLFW call that main makes on a window is made on the
    window glfwCreateWindow returned, and that window is not null. *)
Theorem main_window_calls (fuel : nat) (h : History) :
  Forall (fun c : call =>
            forall w : Z,
              window_of_call c = Some w ->
              w = window_handle drv h /\ w <> NULL)
         (calls_of (main drv fuel) h).
Proof.
  set (P := fun c : call =>
              forall w : Z,
                window_of_call c = Some w ->
                w = window_handle drv h /\ w <> NULL).
  assert (Hnone : forall l : History,
             filter (fun c => match window_of_call c with
                              | Some _ => true
                              | None => false
                              end) l = [] ->
             Forall P l).
  { induction l as [|x l IH]; intros Hl; [constructor|].
    cbn [filter] in Hl. destruct (window_of_call x) eqn:Hx; [discriminate|].
    constructor; [|now apply IH]. intros w E. congruence. }
  destruct (main_cases fuel h)
    as [[_ Hrun]|[(_ & _ & Hrun)
                 |[(_ & Hw & k & _ & Hrun)|(_ & Hw & _ & Hrun)]]];
    rewrite (calls_of_run _ _ _ _ Hrun); try (now apply Hnone).
  all: assert (Hhere : forall c : call,
                  window_of_call c = None
                  \/ window_of_call c = Some (window_handle drv h) -> P c)
    by (intros c [E|E] w Ew; rewrite E in Ew;
        [discriminate | injection Ew as <-; now split]).
  all: assert (Hframes : forall n : nat,
                  Forall P (frames (window_handle drv h) n))
    by (induction n as [|n IH]; [constructor|];
        rewrite frames_S; apply Forall_app; split; [|exact IH];
        repeat (apply Forall_cons; [apply Hhere; cbn; tauto|]);
        apply Forall_nil).
  all: assert (Hsetup : Forall P (setup_calls drv h))
    by (unfold setup_calls; apply Forall_app; split;
        [ repeat (apply Forall_cons; [apply Hhere; cbn; tauto|]);
          apply Forall_nil
        | apply Hnone;
          unfold glew_calls, CreateShader_calls, CompileShader_calls;
          by_branches ]).
  - apply Forall_app. split; [exact Hsetup|].
    apply Forall_app. split; [apply Hframes|].
    repeat (apply Forall_cons; [apply Hhere; cbn; tauto|]). apply Forall_nil.
  - apply Forall_app. split; [exact Hsetup | apply Hframes].
Qed.

(** X12.  A window that asks to close before the first frame is never
    drawn to: main goes from glUseProgram to the one close test and
    straight on to shutdown, and returns 0. *)
Theorem main_closed_at_start (fuel : nat) (h : History) :
  init_result drv h <> 0 -> window_handle drv h <> NULL ->
  close_flag drv (window_handle drv h) (h ++ setup_calls drv h) 0 <> 0 ->
  (0 < fuel)%nat ->
  main drv fuel h
  = (Some 0,
     h ++ setup_calls drv h
       ++ [ glfwWindowShouldClose (window_handle drv h);
            glDeleteShader (shader_handle drv h);
            glfwTerminate ])
  /\ count is_draw (calls_of (main drv fuel) h) = 0%nat.
Proof.
  intros Hinit Hwin Hset Hfuel.
  assert (Hfirst : first_close drv (window_handle drv h)
                     (h ++ setup_calls drv h) fuel = Some 0%nat).
  { apply first_close_spec. repeat split; [lia | exact Hset | intros j Hj; lia]. }
  assert (Hrun : main drv fuel h
                 = (Some 0,
                    h ++ setup_calls drv h
                      ++ [ glfwWindowShouldClose (window_handle drv h);
                           glDeleteShader (shader_handle drv h);
                           glfwTerminate ])).
  { rewrite (main_run_ok drv fuel h Hinit Hwin), Hfirst. reflexivity. }
  split; [exact Hrun|].
  rewrite (calls_of_run _ _ _ _ Hrun), count_app.
  assert (Hquiet : count is_draw (setup_calls drv h) = 0%nat)
    by (unfold count; quiet_setup).
  now rewrite Hquiet.
Qed.

End Further.

(** * Concrete runs for the further properties *)

Lemma CompileShader_nonzero_iff_witness :
  let drv := sample_driver (healthy 1) in
  fst (CompileShader drv GL_VERTEX_SHADER vertexShader []) <> 0
  /\ ~ fst (CompileShader drv GL_VERTEX_SHADER "oops" []) <> 0.
Proof.
  intros drv. split.
  - apply (CompileShader_nonzero_iff drv GL_VERTEX_SHADER vertexShader []).
    split; vm_compute; discriminate.
  - intros Hnz.
    apply (CompileShader_nonzero_iff drv GL_VERTEX_SHADER "oops" []) in Hnz.
    destruct Hnz as [Hstatus _]. apply Hstatus. reflexivity.
Defined.

Lemma CompileShader_silent_iff_witness :
  let drv := sample_driver (healthy 1) in
  stdout (calls_of (CompileShader drv GL_VERTEX_SHADER vertexShader) [])
  = EmptyString.
Proof.
  intros drv.
  apply (CompileShader_silent_iff drv GL_VERTEX_SHADER vertexShader []).
  vm_compute. discriminate.
Defined.

Lemma CreateShader_delete_count_witness :
  let drv := sample_driver (healthy 1) in
  count is_delete (calls_of (CreateShader drv "oops" fragmentShader) [])
  = 3%nat
  /\ In (glDeleteShader 0)
        (calls_of (CreateShader drv "oops" fragmentShader) []).
Proof.
  intros drv.
  destruct (CreateShader_delete_count drv "oops" fragmentShader [])
    as [Hcount Hnull].
  split.
  - rewrite Hcount. reflexivity.
  - apply Hnull. left. reflexivity.
Defined.

Lemma CreateShader_stdout_witness :
  let drv := sample_driver (healthy 1) in
  stdout (calls_of (CreateShader drv vertexShader fragmentShader) [])
  = EmptyString.
Proof.
  intros drv.
  apply (CreateShader_stdout drv vertexShader fragmentShader []).
  split; vm_compute; discriminate.
Defined.

Lemma main_stdout_witness :
  let drv := sample_driver no_glew in
  stdout (calls_of (main drv 3) [])
  = ("Error!" ++ newline ++ "3.3.0" ++ newline)%string.
Proof.
  intros drv.
  rewrite (main_stdout drv 3 []); [reflexivity | |]; vm_compute; discriminate.
Defined.

Lemma main_terminate_last_witness :
  let drv := sample_driver (healthy 2) in
  exists before : History,
    calls_of (main drv 5) [] = before ++ [glfwTerminate]
    /\ count is_terminate before = 0%nat.
Proof.
  intros drv.
  assert (Hinit : init_result drv [] <> 0) by (vm_compute; discriminate).
  destruct (main_terminate_last drv 5 [] Hinit) as [Hdone _].
  apply (Hdone 0). reflexivity.
Defined.

Lemma main_frame_counts_witness :
  let drv := sample_driver (healthy 2) in
  exists k : nat,
    count is_draw (calls_of (main drv 5) []) = k
    /\ count is_swap (calls_of (main drv 5) []) = k.
Proof.
  intros drv.
  assert (Hinit : init_result drv [] <> 0) by (vm_compute; discriminate).
  assert (Hwin : window_handle drv [] <> NULL) by (vm_compute; discriminate).
  destruct (main_frame_counts drv 5 [] Hinit Hwin)
    as (k & _ & _ & Hdraw & Hswap & _).
  exists k. split; assumption.
Defined.

Lemma main_draw_after_setup_witness :
  let drv := sample_driver (healthy 1) in
  let before :=
      setup_calls drv []
        ++ [glfwWindowShouldClose 0x1000; glClear GL_COLOR_BUFFER_BIT] in
  In (glUseProgram (shader_handle drv [])) before.
Proof.
  intros drv before.
  apply (main_draw_after_setup drv 3 [] before
           [ glfwSwapBuffers 0x1000; glfwPollEvents;
             glfwWindowShouldClose 0x1000; glDeleteShader 1; glfwTerminate ]
           (glDrawArrays GL_TRIANGLES 0 3));
    reflexivity.
Defined.

Lemma main_gl_after_context_witness :
  let drv := sample_driver (healthy 1) in
  In (glfwMakeContextCurrent (window_handle drv []))
     [glfwInit; create_window; glfwMakeContextCurrent 0x1000; glewInit].
Proof.
  intros drv.
  apply (main_gl_after_context drv 3 []
           [glfwInit; create_window; glfwMakeContextCurrent 0x1000; glewInit]
           (skipn 5 (calls_of (main drv 3) []))
           (glGetString GL_VERSION));
    reflexivity.
Defined.

Lemma main_window_calls_witness :
  let drv := sample_driver (healthy 1) in
  0x1000 = window_handle drv [] /\ 0x1000 <> NULL.
Proof.
  intros drv.
  pose proof (main_window_calls drv 3 []) as Hall.
  rewrite Forall_forall in Hall.
  apply (Hall (glfwMakeContextCurrent 0x1000)); [|reflexivity].
  apply (nth_error_In _ 2). reflexivity.
Defined.

Lemma main_closed_at_start_witness :
  let drv := sample_driver (healthy 0) in
  fst (main drv 1 []) = Some 0
  /\ count is_draw (calls_of (main drv 1) []) = 0%nat.
Proof.
  intros drv.
  destruct (main_closed_at_start drv 1 []) as [Hrun Hdraw];
    [vm_compute; discriminate .. | lia |].
  split; [now rewrite Hrun | exact Hdraw].
Defined.

